(** * CoordinateConversionOptions

    A shallow embedding of
    [Plugin/CppApi/source/CoordinateConversionOptions.cpp]
    (namespace [Esri::ArcGISRuntime::Toolkit]) and the properties of the
    option record it implements: the property setters and getters with
    their change signals, the two conversions between [CoordinateType]
    and [QString], the list of coordinate type names, and the four
    [QQmlListProperty] callbacks.

    Conventions.
    - A C++ [int] is a [Z]; the file does no arithmetic on them, so no
      wrap-around occurs anywhere.
    - A [QString] is a [string]; [operator==] is the exact, case-sensitive
      comparison [String.eqb]; [QString()] is the empty string.
    - A non-const member function is a computation over the record of
      member variables that also collects the signals it emits.
    - A const member function is a function of the record ([this]). *)

From Stdlib Require Import ZArith String List Bool Lia.
Import ListNotations.

Local Open Scope string_scope.
Local Open Scope Z_scope.
Local Open Scope list_scope.

(** ** The parts of Qt that the file uses *)

Module Qt.

Definition QString : Type := string.

(** [QString()], the null string; it compares equal to the empty one. *)
Definition QString_null : QString := EmptyString.

(** [operator==(const QString&, const QString&)]. *)
Definition QString_eq (a b : QString) : bool := String.eqb a b.

Definition QStringList : Type := list QString.

(** [QStringList()]. *)
Definition QStringList_empty : QStringList := [].

(** [QStringList::operator<<]: appends at the end. *)
Definition QStringList_shl (l : QStringList) (s : QString) : QStringList :=
  l ++ [s].

(** An object pointer is an address; address 0 is [nullptr]. *)
Definition Ptr : Type := N.
Definition nullptr : Ptr := 0%N.

(** [T()] for the element types that [QList<T>::value] may have to
    default-construct. *)
Class DefaultConstructible (T : Type) : Type := default_constructed : T.

#[export] Instance Ptr_default : DefaultConstructible Ptr := nullptr.

Definition QList (T : Type) : Type := list T.

(** [QList<T>::count() const]. *)
Definition QList_count {T : Type} (l : QList T) : Z :=
  Z.of_nat (List.length l).

(** [QList<T>::value(int i) const], as Qt defines it:
    [if (i < 0 || i >= p.size()) return T(); return at(i);]. *)
Definition QList_value {T : Type} `{DefaultConstructible T}
    (l : QList T) (i : Z) : T :=
  if (i <? 0) || (QList_count l <=? i) then default_constructed
  else nth (Z.to_nat i) l default_constructed.

End Qt.

Import Qt.

(** ** Enumerations *)

(** The six enumerators of [CoordinateConversionOptions::CoordinateType]. *)
Inductive CoordinateTypeEnumerator : Type :=
| CoordinateTypeGars
| CoordinateTypeGeoRef
| CoordinateTypeLatLon
| CoordinateTypeMgrs
| CoordinateTypeUsng
| CoordinateTypeUtm.

(** A value of type [CoordinateType] is its underlying integer.  The
    [switch] of [coordinateTypeToString] has a [default] label, so the
    values that are no enumerator are part of the model. *)
Definition CoordinateType : Type := Z.

Definition enumerators : list CoordinateTypeEnumerator :=
  [CoordinateTypeGars; CoordinateTypeGeoRef; CoordinateTypeLatLon;
   CoordinateTypeMgrs; CoordinateTypeUsng; CoordinateTypeUtm].

Inductive MgrsConversionMode : Type :=
| MgrsConversionModeAutomatic
| MgrsConversionModeNew180InZone01
| MgrsConversionModeNew180InZone60
| MgrsConversionModeOld180InZone01
| MgrsConversionModeOld180InZone60.

Inductive UtmConversionMode : Type :=
| UtmConversionModeLatitudeBandIndicators
| UtmConversionModeNorthSouthIndicators.

Inductive LatitudeLongitudeFormat : Type :=
| LatitudeLongitudeFormatDecimalDegrees
| LatitudeLongitudeFormatDegreesDecimalMinutes
| LatitudeLongitudeFormatDegreesMinutesSeconds.

(** [all_distinct l]: no integer occurs twice in [l]. *)
Fixpoint all_distinct (l : list Z) : bool :=
  match l with
  | [] => true
  | x :: r => negb (existsb (Z.eqb x) r) && all_distinct r
  end.

(** The enumerator values when the declaration gives no initialisers, in
    the order in which the [\enum] documentation lists them. *)
Definition declaration_order (T : CoordinateTypeEnumerator) : CoordinateType :=
  match T with
  | CoordinateTypeGars => 0
  | CoordinateTypeGeoRef => 1
  | CoordinateTypeLatLon => 2
  | CoordinateTypeMgrs => 3
  | CoordinateTypeUsng => 4
  | CoordinateTypeUtm => 5
  end.

(** ** The object *)

(** The member variables. *)
Record CoordinateConversionOptions : Type := mkOptions {
  m_outputMode : CoordinateType;
  m_name : QString;
  m_addSpaces : bool;
  m_precision : Z;
  m_decimalPlaces : Z;
  m_mgrsConversionMode : MgrsConversionMode;
  m_latLonFormat : LatitudeLongitudeFormat;
  m_utmConversionMode : UtmConversionMode
}.

(** The signals of the class. *)
Inductive Signal : Type :=
| outputModeChanged
| nameChanged
| addSpacesChanged
| precisionChanged
| decimalPlacesChanged
| mgrsConversionModeChanged
| latLonFormatChanged
| utmConversionModeChanged.

(** ** Member functions as computations

    A non-const member function maps the object to a result, the object
    afterwards and the signals emitted, oldest first. *)

Definition Method (A : Type) : Type :=
  CoordinateConversionOptions -> A * CoordinateConversionOptions * list Signal.

Definition ret {A : Type} (a : A) : Method A :=
  fun this => (a, this, []).

Definition bind {A B : Type} (m : Method A) (k : A -> Method B) : Method B :=
  fun this =>
    let '(a, this1, s1) := m this in
    let '(b, this2, s2) := k a this1 in
    (b, this2, s1 ++ s2).

(** An assignment to member variables. *)
Definition assign (f : CoordinateConversionOptions -> CoordinateConversionOptions)
  : Method unit :=
  fun this => (tt, f this, []).

(** [emit s();]. *)
Definition emit (s : Signal) : Method unit :=
  fun this => (tt, this, [s]).

Notation "c1 ;; c2" := (bind c1 (fun _ => c2))
  (at level 61, right associativity).

(** The three components of a call. *)
Definition result {A : Type} (m : Method A) (this : CoordinateConversionOptions) : A :=
  fst (fst (m this)).

Definition after {A : Type} (m : Method A) (this : CoordinateConversionOptions)
  : CoordinateConversionOptions :=
  snd (fst (m this)).

Definition emitted {A : Type} (m : Method A) (this : CoordinateConversionOptions)
  : list Signal :=
  snd (m this).

(** *** Getters and setters *)

Definition outputMode (this : CoordinateConversionOptions) : CoordinateType :=
  m_outputMode this.

Definition setOutputMode (outputMode : CoordinateType) : Method unit :=
  assign (fun this =>
    mkOptions outputMode (m_name this) (m_addSpaces this) (m_precision this)
              (m_decimalPlaces this) (m_mgrsConversionMode this)
              (m_latLonFormat this) (m_utmConversionMode this)) ;;
  emit outputModeChanged.

Definition name (this : CoordinateConversionOptions) : QString :=
  m_name this.

Definition setName (name : QString) : Method unit :=
  assign (fun this =>
    mkOptions (m_outputMode this) name (m_addSpaces this) (m_precision this)
              (m_decimalPlaces this) (m_mgrsConversionMode this)
              (m_latLonFormat this) (m_utmConversionMode this)) ;;
  emit nameChanged.

Definition addSpaces (this : CoordinateConversionOptions) : bool :=
  m_addSpaces this.

Definition setAddSpaces (addSpaces : bool) : Method unit :=
  assign (fun this =>
    mkOptions (m_outputMode this) (m_name this) addSpaces (m_precision this)
              (m_decimalPlaces this) (m_mgrsConversionMode this)
              (m_latLonFormat this) (m_utmConversionMode this)) ;;
  emit addSpacesChanged.

Definition precision (this : CoordinateConversionOptions) : Z :=
  m_precision this.

Definition setPrecision (precision : Z) : Method unit :=
  assign (fun this =>
    mkOptions (m_outputMode this) (m_name this) (m_addSpaces this) precision
              (m_decimalPlaces this) (m_mgrsConversionMode this)
              (m_latLonFormat this) (m_utmConversionMode this)) ;;
  emit precisionChanged.

Definition decimalPlaces (this : CoordinateConversionOptions) : Z :=
  m_decimalPlaces this.

Definition setDecimalPlaces (decimalPlaces : Z) : Method unit :=
  assign (fun this =>
    mkOptions (m_outputMode this) (m_name this) (m_addSpaces this)
              (m_precision this) decimalPlaces (m_mgrsConversionMode this)
              (m_latLonFormat this) (m_utmConversionMode this)) ;;
  emit decimalPlacesChanged.

Definition mgrsConversionMode (this : CoordinateConversionOptions)
  : MgrsConversionMode :=
  m_mgrsConversionMode this.

Definition setMgrsConversionMode (mgrsConversionMode : MgrsConversionMode)
  : Method unit :=
  assign (fun this =>
    mkOptions (m_outputMode this) (m_name this) (m_addSpaces this)
              (m_precision this) (m_decimalPlaces this) mgrsConversionMode
              (m_latLonFormat this) (m_utmConversionMode this)) ;;
  emit mgrsConversionModeChanged.

Definition latLonFormat (this : CoordinateConversionOptions)
  : LatitudeLongitudeFormat :=
  m_latLonFormat this.

Definition setLatLonFormat (latLonFormat : LatitudeLongitudeFormat)
  : Method unit :=
  assign (fun this =>
    mkOptions (m_outputMode this) (m_name this) (m_addSpaces this)
              (m_precision this) (m_decimalPlaces this)
              (m_mgrsConversionMode this) latLonFormat
              (m_utmConversionMode this)) ;;
  emit latLonFormatChanged.

Definition utmConversionMode (this : CoordinateConversionOptions)
  : UtmConversionMode :=
  m_utmConversionMode this.

Definition setUtmConversionMode (utmConversionMode : UtmConversionMode)
  : Method unit :=
  assign (fun this =>
    mkOptions (m_outputMode this) (m_name this) (m_addSpaces this)
              (m_precision this) (m_decimalPlaces this)
              (m_mgrsConversionMode this) (m_latLonFormat this)
              utmConversionMode) ;;
  emit utmConversionModeChanged.

(** *** The property table

    One row per [\property] of the class with a setter: its value type,
    its reader, its writer and the signal named after it.  The table only
    lets a statement range over "every property"; each entry is one of the
    functions above. *)

Inductive Property : Type :=
| P_outputMode
| P_name
| P_addSpaces
| P_precision
| P_decimalPlaces
| P_mgrsConversionMode
| P_latLonFormat
| P_utmConversionMode.

Definition properties : list Property :=
  [P_outputMode; P_name; P_addSpaces; P_precision; P_decimalPlaces;
   P_mgrsConversionMode; P_latLonFormat; P_utmConversionMode].

Definition PropertyType (P : Property) : Type :=
  match P with
  | P_outputMode => CoordinateType
  | P_name => QString
  | P_addSpaces => bool
  | P_precision => Z
  | P_decimalPlaces => Z
  | P_mgrsConversionMode => MgrsConversionMode
  | P_latLonFormat => LatitudeLongitudeFormat
  | P_utmConversionMode => UtmConversionMode
  end.

Definition READ (P : Property) : CoordinateConversionOptions -> PropertyType P :=
  match P with
  | P_outputMode => outputMode
  | P_name => name
  | P_addSpaces => addSpaces
  | P_precision => precision
  | P_decimalPlaces => decimalPlaces
  | P_mgrsConversionMode => mgrsConversionMode
  | P_latLonFormat => latLonFormat
  | P_utmConversionMode => utmConversionMode
  end.

Definition WRITE (P : Property) : PropertyType P -> Method unit :=
  match P with
  | P_outputMode => setOutputMode
  | P_name => setName
  | P_addSpaces => setAddSpaces
  | P_precision => setPrecision
  | P_decimalPlaces => setDecimalPlaces
  | P_mgrsConversionMode => setMgrsConversionMode
  | P_latLonFormat => setLatLonFormat
  | P_utmConversionMode => setUtmConversionMode
  end.

Definition NOTIFY (P : Property) : Signal :=
  match P with
  | P_outputMode => outputModeChanged
  | P_name => nameChanged
  | P_addSpaces => addSpacesChanged
  | P_precision => precisionChanged
  | P_decimalPlaces => decimalPlacesChanged
  | P_mgrsConversionMode => mgrsConversionModeChanged
  | P_latLonFormat => latLonFormatChanged
  | P_utmConversionMode => utmConversionModeChanged
  end.

Definition Property_eqb (P Q : Property) : bool :=
  match P, Q with
  | P_outputMode, P_outputMode
  | P_name, P_name
  | P_addSpaces, P_addSpaces
  | P_precision, P_precision
  | P_decimalPlaces, P_decimalPlaces
  | P_mgrsConversionMode, P_mgrsConversionMode
  | P_latLonFormat, P_latLonFormat
  | P_utmConversionMode, P_utmConversionMode => true
  | _, _ => false
  end.

Definition Signal_eqb (a b : Signal) : bool :=
  match a, b with
  | outputModeChanged, outputModeChanged
  | nameChanged, nameChanged
  | addSpacesChanged, addSpacesChanged
  | precisionChanged, precisionChanged
  | decimalPlacesChanged, decimalPlacesChanged
  | mgrsConversionModeChanged, mgrsConversionModeChanged
  | latLonFormatChanged, latLonFormatChanged
  | utmConversionModeChanged, utmConversionModeChanged => true
  | _, _ => false
  end.

(** How often signal [s] occurs among the emitted signals [l]. *)
Definition emissions (s : Signal) (l : list Signal) : nat :=
  List.length (filter (Signal_eqb s) l).

(** ** The static strings *)

Definition s_gars : QString := "Gars".
Definition s_georef : QString := "GeoRef".
Definition s_latlon : QString := "LatLon".
Definition s_mgrs : QString := "Mgrs".
Definition s_usng : QString := "Usng".
Definition s_utm : QString := "Utm".

(** ** What depends on the class declaration

    [CoordinateConversionOptions.h] fixes the integer of each enumerator
    and the initial values of the member variables.  The enumerator values
    and the two initial values that no documentation states are taken as
    parameters. *)

Section Declaration.

Variable value_of : CoordinateTypeEnumerator -> CoordinateType.

Variable initial_name : QString.
Variable initial_addSpaces : bool.

(** Modelled from the spec: the default member initialisers, which are
    in [CoordinateConversionOptions.h] and not in the sources.  The body
    of the constructor is empty and leaves the members as the
    declaration initialises them: [outputMode] is [Usng] by the spec
    and by the [\property] documentation, and the documentation gives
    precision 8, six decimal places and the first enumerator of each of
    the other enumerations. *)
Definition constructor (parent : Ptr) : CoordinateConversionOptions :=
  {| m_outputMode := value_of CoordinateTypeUsng;
     m_name := initial_name;
     m_addSpaces := initial_addSpaces;
     m_precision := 8;
     m_decimalPlaces := 6;
     m_mgrsConversionMode := MgrsConversionModeAutomatic;
     m_latLonFormat := LatitudeLongitudeFormatDecimalDegrees;
     m_utmConversionMode := UtmConversionModeLatitudeBandIndicators |}.

Definition stringToCoordinateType (this : CoordinateConversionOptions)
    (type : QString) : CoordinateType :=
  if QString_eq type s_gars then value_of CoordinateTypeGars
  else if QString_eq type s_georef then value_of CoordinateTypeGeoRef
  else if QString_eq type s_latlon then value_of CoordinateTypeLatLon
  else if QString_eq type s_mgrs then value_of CoordinateTypeMgrs
  else if QString_eq type s_usng then value_of CoordinateTypeUsng
  else if QString_eq type s_utm then value_of CoordinateTypeUtm
  else value_of CoordinateTypeLatLon.

(** The [switch]: the first label equal to [type] is taken, [default]
    falls out of the [switch] to the final [return QString()]. *)
Definition coordinateTypeToString (this : CoordinateConversionOptions)
    (type : CoordinateType) : QString :=
  if type =? value_of CoordinateTypeGars then s_gars
  else if type =? value_of CoordinateTypeGeoRef then s_georef
  else if type =? value_of CoordinateTypeLatLon then s_latlon
  else if type =? value_of CoordinateTypeMgrs then s_mgrs
  else if type =? value_of CoordinateTypeUsng then s_usng
  else if type =? value_of CoordinateTypeUtm then s_utm
  else QString_null.

End Declaration.

(** [coordinateTypeNames() const]. *)
Definition coordinateTypeNames (this : CoordinateConversionOptions)
  : QStringList :=
  QStringList_shl
    (QStringList_shl
      (QStringList_shl
        (QStringList_shl
          (QStringList_shl
            (QStringList_shl QStringList_empty s_gars)
            s_georef)
          s_latlon)
        s_mgrs)
      s_usng)
    s_utm.

(** The string that the table of the documentation gives a type. *)
Definition canonical (T : CoordinateTypeEnumerator) : QString :=
  match T with
  | CoordinateTypeGars => "Gars"
  | CoordinateTypeGeoRef => "GeoRef"
  | CoordinateTypeLatLon => "LatLon"
  | CoordinateTypeMgrs => "Mgrs"
  | CoordinateTypeUsng => "Usng"
  | CoordinateTypeUtm => "Utm"
  end.

(** ** The list property callbacks

    The four static functions receive a [QQmlListProperty]: [object] is
    the address of the owning [CoordinateConversionController], [data]
    designates the [QList] of option pointers that the property reads, and
    stands here for the contents of that list at the time of the call.
    The controller is not part of the sources, so a call of one of its
    member functions is recorded as such, with the receiver and the
    argument. *)

Record QQmlListProperty : Type := mkProperty {
  object : Ptr;
  data : QList Ptr
}.

Inductive ControllerCall : Type :=
| addOption (controller : Ptr) (option : Ptr)
| clearOptions (controller : Ptr).

(** A callback yields its result and the controller calls it made. *)
Definition Callback (A : Type) : Type := (A * list ControllerCall)%type.

Definition returned {A : Type} (c : Callback A) : A := fst c.
Definition calls {A : Type} (c : Callback A) : list ControllerCall := snd c.

Definition listAppend (property : QQmlListProperty) (value : Ptr)
  : Callback unit :=
  (tt, [addOption (object property) value]).

Definition listAt (property : QQmlListProperty) (index : Z) : Callback Ptr :=
  (QList_value (data property) index, []).

Definition listCount (property : QQmlListProperty) : Callback Z :=
  (QList_count (data property), []).

Definition listClear (property : QQmlListProperty) : Callback unit :=
  (tt, [clearOptions (object property)]).

(** *** Running the calls on a controller

    Whatever the controller does in [addOption] and [clearOptions], a
    recorded call runs that member function on the controller at the
    given address and on no other. *)

Section Controller.

Variable Controller : Type.
Variable addOption_body : Ptr -> Controller -> Controller.
Variable clearOptions_body : Controller -> Controller.

(** The controllers by address. *)
Definition Controllers : Type := Ptr -> Controller.

Definition update (h : Controllers) (a : Ptr) (c : Controller) : Controllers :=
  fun b => if N.eqb a b then c else h b.

Definition perform (h : Controllers) (c : ControllerCall) : Controllers :=
  match c with
  | addOption a v => update h a (addOption_body v (h a))
  | clearOptions a => update h a (clearOptions_body (h a))
  end.

Definition run {A : Type} (c : Callback A) (h : Controllers) : Controllers :=
  fold_left perform (calls c) h.

End Controller.

(** [setOutputMode] called with each mode of a list in turn. *)
Fixpoint setOutputModes (modes : list CoordinateType) : Method unit :=
  match modes with
  | [] => ret tt
  | mode :: rest => setOutputMode mode ;; setOutputModes rest
  end.

(** An object to evaluate the functions on. *)
Definition sample : CoordinateConversionOptions :=
  constructor declaration_order "" true nullptr.

Definition sample_property : QQmlListProperty :=
  {| object := 7%N; data := [16%N; 32%N; 48%N] |}.

(** *** Sequences of setter calls

    A call of a setter is the property it belongs to with the argument
    passed; a list of calls is made in order, first to last, on the same
    object. *)

Record SetterCall : Type := setter_call {
  target : Property;
  argument : PropertyType target
}.

Definition call (c : SetterCall) : Method unit :=
  WRITE (target c) (argument c).

Fixpoint call_in_turn (l : list SetterCall) : Method unit :=
  match l with
  | [] => ret tt
  | c :: rest => call c ;; call_in_turn rest
  end.

(** The indices [0], [1], ..., [n - 1] as the [int]s that a caller of
    [listAt] passes. *)
Definition indices (n : nat) : list Z := map Z.of_nat (seq 0 n).

(** * Properties *)

(** ** The computations *)

Lemma after_bind {A B : Type} (m : Method A) (k : A -> Method B) this :
  after (bind m k) this = after (k (result m this)) (after m this).
Proof.
  unfold after, result, bind.
  destruct (m this) as [[a this1] s1]; cbn.
  destruct (k a this1) as [[b this2] s2]; reflexivity.
Qed.





(** Each property has a signal of its own. *)
Lemma NOTIFY_injective (P Q : Property) : NOTIFY P = NOTIFY Q -> P = Q.
Proof. destruct P, Q; cbn; congruence. Qed.

Lemma Signal_eqb_NOTIFY (P Q : Property) :
  Signal_eqb (NOTIFY Q) (NOTIFY P) = Property_eqb P Q.
Proof. destruct P, Q; reflexivity. Qed.

(** A setter leaves the reading of every other property as it was. *)
Lemma READ_after_WRITE_other (P Q : Property) (v : PropertyType P) this :
  P <> Q -> READ Q (after (WRITE P v) this) = READ Q this.
Proof.
  intro D. revert v. destruct P, Q; intro v; try reflexivity; congruence.
Qed.

Lemma READ_after_WRITE (P : Property) (v : PropertyType P) this :
  READ P (after (WRITE P v) this) = v.
Proof. revert v. destruct P; reflexivity. Qed.

(** Any number of changes of the output mode keeps the other properties. *)
Lemma READ_after_setOutputModes (modes : list CoordinateType) (Q : Property) this :
  Q <> P_outputMode -> READ Q (after (setOutputModes modes) this) = READ Q this.
Proof.
  intro D. revert this.
  induction modes as [| mode rest IH]; intro this.
  - reflexivity.
  - cbn [setOutputModes]. rewrite after_bind, IH.
    apply (READ_after_WRITE_other P_outputMode Q mode this). congruence.
Qed.

(** C1: every setter stores its argument as it is, and the getter of the
    same property then returns exactly that value, for every property and
    every value; [setPrecision(-1)] and [setPrecision(99)] are instances,
    after which [precision()] is -1 and 99.  A setter has no error result:
    its type is [Method unit]. *)
Theorem setter_stores_value :
  (forall (P : Property) (v : PropertyType P) (this : CoordinateConversionOptions),
      READ P (after (WRITE P v) this) = v)
  /\ (forall this, precision (after (setPrecision (-1)) this) = -1)
  /\ (forall this, precision (after (setPrecision 99) this) = 99).
Proof.
  split; [| split].
  - exact READ_after_WRITE.
  - intro this. exact (READ_after_WRITE P_precision (-1) this).
  - intro this. exact (READ_after_WRITE P_precision 99 this).
Qed.

(** C6: a call of a setter emits one signal, the change signal of its own
    property, and the signal of no other property; this is so whatever the
    value is, also when it is the value the property already has, in which
    case the object is left as it was and the signal is emitted all the
    same. *)
Theorem setter_emits_own_signal_once :
  forall (P : Property) (v : PropertyType P) (this : CoordinateConversionOptions),
    emitted (WRITE P v) this = [NOTIFY P]
    /\ (forall Q : Property,
          emissions (NOTIFY Q) (emitted (WRITE P v) this) =
          if Property_eqb P Q then 1%nat else 0%nat)
    /\ after (WRITE P (READ P this)) this = this
    /\ emitted (WRITE P (READ P this)) this = [NOTIFY P].
Proof.
  intros P v this.
  assert (E : forall w : PropertyType P, emitted (WRITE P w) this = [NOTIFY P]).
  { clear v. destruct P; intro w; reflexivity. }
  split; [apply E | split; [| split]].
  - intro Q. rewrite E. unfold emissions. cbn [filter].
    rewrite Signal_eqb_NOTIFY. destruct (Property_eqb P Q); reflexivity.
  - destruct this; destruct P; reflexivity.
  - apply E.
Qed.

(** C7: a setter changes the member of its own property only, so every
    other property reads as before the call.  In particular any sequence
    of changes of [outputMode] keeps the other properties, and setting
    [outputMode] to [Utm] and then to [Mgrs] keeps [mgrsConversionMode] and
    [precision]; on an object whose mode was [Mgrs] it gives the object
    back as it was. *)
Theorem setter_changes_own_field_only :
  forall value_of : CoordinateTypeEnumerator -> CoordinateType,
    (forall (P Q : Property) (v : PropertyType P) this,
        P <> Q -> READ Q (after (WRITE P v) this) = READ Q this)
    /\ (forall (modes : list CoordinateType) (Q : Property) this,
          Q <> P_outputMode ->
          READ Q (after (setOutputModes modes) this) = READ Q this)
    /\ (forall this,
          mgrsConversionMode
            (after (setOutputMode (value_of CoordinateTypeUtm) ;;
                    setOutputMode (value_of CoordinateTypeMgrs)) this)
          = mgrsConversionMode this
          /\ precision
               (after (setOutputMode (value_of CoordinateTypeUtm) ;;
                       setOutputMode (value_of CoordinateTypeMgrs)) this)
             = precision this
          /\ outputMode
               (after (setOutputMode (value_of CoordinateTypeUtm) ;;
                       setOutputMode (value_of CoordinateTypeMgrs)) this)
             = value_of CoordinateTypeMgrs)
    /\ (forall this,
          outputMode this = value_of CoordinateTypeMgrs ->
          after (setOutputMode (value_of CoordinateTypeUtm) ;;
                 setOutputMode (value_of CoordinateTypeMgrs)) this = this).
Proof.
  intro value_of. split; [| split; [| split]].
  - exact READ_after_WRITE_other.
  - exact READ_after_setOutputModes.
  - intro this. repeat split; reflexivity.
  - intros [mode n a p d m l u]; cbn. intro E. rewrite <- E. reflexivity.
Qed.

Lemma setter_changes_own_field_only_witness :
  (P_outputMode <> P_precision
   /\ READ P_precision (after (WRITE P_outputMode 5) sample)
      = READ P_precision sample)
  /\ (outputMode (after (setOutputMode 3) sample) = declaration_order CoordinateTypeMgrs
      /\ after (setOutputMode (declaration_order CoordinateTypeUtm) ;;
                setOutputMode (declaration_order CoordinateTypeMgrs))
               (after (setOutputMode 3) sample)
         = after (setOutputMode 3) sample).
Proof.
  split; split.
  - discriminate.
  - apply (proj1 (setter_changes_own_field_only declaration_order)).
    discriminate.
  - reflexivity.
  - apply (proj2 (proj2 (proj2 (setter_changes_own_field_only declaration_order)))).
    reflexivity.
Defined.

(** C8: a newly constructed object, on which no setter was called, has
    output mode [Usng]. *)
Theorem constructed_outputMode_is_Usng :
  forall (value_of : CoordinateTypeEnumerator -> CoordinateType)
         (initial_name : QString) (initial_addSpaces : bool) (parent : Ptr),
    outputMode (constructor value_of initial_name initial_addSpaces parent)
    = value_of CoordinateTypeUsng.
Proof. reflexivity. Qed.

(** C5: [coordinateTypeNames()] is the list of the six names in the order
    Gars, GeoRef, LatLon, Mgrs, Usng, Utm, on every object. *)
Theorem coordinateTypeNames_fixed :
  forall this : CoordinateConversionOptions,
    coordinateTypeNames this = ["Gars"; "GeoRef"; "LatLon"; "Mgrs"; "Usng"; "Utm"].
Proof. reflexivity. Qed.

(** ** The conversions between types and strings *)

Lemma QString_eq_false (a b : QString) : a <> b -> QString_eq a b = false.
Proof. intro D. unfold QString_eq. now apply String.eqb_neq. Qed.

(** C3: [stringToCoordinateType] gives each of the six exact names its
    type, and gives [LatLon] for every other string; the comparison is
    exact, so a name in another case is another string and gives [LatLon]
    too, as "bogus" and the empty string do. *)
Theorem stringToCoordinateType_spec :
  forall (value_of : CoordinateTypeEnumerator -> CoordinateType)
         (this : CoordinateConversionOptions),
    (stringToCoordinateType value_of this "Gars" = value_of CoordinateTypeGars
     /\ stringToCoordinateType value_of this "GeoRef" = value_of CoordinateTypeGeoRef
     /\ stringToCoordinateType value_of this "LatLon" = value_of CoordinateTypeLatLon
     /\ stringToCoordinateType value_of this "Mgrs" = value_of CoordinateTypeMgrs
     /\ stringToCoordinateType value_of this "Usng" = value_of CoordinateTypeUsng
     /\ stringToCoordinateType value_of this "Utm" = value_of CoordinateTypeUtm)
    /\ (forall type : QString,
          ~ In type ["Gars"; "GeoRef"; "LatLon"; "Mgrs"; "Usng"; "Utm"] ->
          stringToCoordinateType value_of this type = value_of CoordinateTypeLatLon)
    /\ Forall (fun type =>
                 stringToCoordinateType value_of this type
                 = value_of CoordinateTypeLatLon)
              ["bogus"; ""; "gars"; "GARS"; "georef"; "Georef"; "GEOREF";
               "latlon"; "Latlon"; "LATLON"; "mgrs"; "MGRS"; "usng"; "USNG";
               "utm"; "UTM"; "Mgrs "; " Mgrs"].
Proof.
  intros value_of this. split; [| split].
  - repeat split; reflexivity.
  - intros type N. cbn in N. unfold stringToCoordinateType.
    unfold s_gars, s_georef, s_latlon, s_mgrs, s_usng, s_utm.
    repeat rewrite QString_eq_false by (intro E; apply N; subst type; tauto).
    reflexivity.
  - repeat constructor.
Qed.

Lemma stringToCoordinateType_spec_witness :
  ~ In "mgrs" ["Gars"; "GeoRef"; "LatLon"; "Mgrs"; "Usng"; "Utm"]
  /\ stringToCoordinateType declaration_order sample "mgrs" = 2.
Proof.
  split.
  - cbn. intuition discriminate.
  - apply (proj1 (proj2 (stringToCoordinateType_spec declaration_order sample))).
    cbn. intuition discriminate.
Defined.

Section Conversions.

Variable value_of : CoordinateTypeEnumerator -> CoordinateType.

(** The labels of a [switch] are pairwise different, or the file does
    not compile. *)
Hypothesis value_of_distinct :
  all_distinct (map value_of enumerators) = true.

Lemma value_of_injective (S T : CoordinateTypeEnumerator) :
  value_of S = value_of T -> S = T.
Proof using value_of_distinct.
  intro E. revert value_of_distinct. unfold enumerators. cbn.
  repeat rewrite andb_true_iff. repeat rewrite negb_true_iff.
  repeat rewrite orb_false_iff. repeat rewrite Z.eqb_neq.
  intro D. destruct S, T; try reflexivity; exfalso; intuition congruence.
Qed.

Lemma coordinateTypeToString_value_of this (T : CoordinateTypeEnumerator) :
  coordinateTypeToString value_of this (value_of T) = canonical T.
Proof using value_of_distinct.
  unfold coordinateTypeToString.
  repeat match goal with
  | |- context [value_of T =? value_of ?U] =>
      let E := fresh "E" in
      destruct (Z.eqb_spec (value_of T) (value_of U)) as [E | E];
      [apply value_of_injective in E; subst T; reflexivity |]
  end.
  destruct T; congruence.
Qed.

Lemma stringToCoordinateType_canonical this (T : CoordinateTypeEnumerator) :
  stringToCoordinateType value_of this (canonical T) = value_of T.
Proof. destruct T; reflexivity. Qed.

(** C2: converting any of the six types to its string and the string
    back gives the type again. *)
Theorem type_string_round_trip :
  forall (this this' : CoordinateConversionOptions)
         (T : CoordinateTypeEnumerator),
    stringToCoordinateType value_of this'
      (coordinateTypeToString value_of this (value_of T))
    = value_of T.
Proof using value_of_distinct.
  intros this this' T.
  rewrite coordinateTypeToString_value_of.
  apply stringToCoordinateType_canonical.
Qed.

(** C4: [coordinateTypeToString] gives each of the six types its name,
    and gives the empty string, with no error, for every value that is
    none of the six. *)
Theorem coordinateTypeToString_spec :
  forall this : CoordinateConversionOptions,
    (coordinateTypeToString value_of this (value_of CoordinateTypeGars) = "Gars"
     /\ coordinateTypeToString value_of this (value_of CoordinateTypeGeoRef) = "GeoRef"
     /\ coordinateTypeToString value_of this (value_of CoordinateTypeLatLon) = "LatLon"
     /\ coordinateTypeToString value_of this (value_of CoordinateTypeMgrs) = "Mgrs"
     /\ coordinateTypeToString value_of this (value_of CoordinateTypeUsng) = "Usng"
     /\ coordinateTypeToString value_of this (value_of CoordinateTypeUtm) = "Utm")
    /\ (forall type : CoordinateType,
          (forall T : CoordinateTypeEnumerator, type <> value_of T) ->
          coordinateTypeToString value_of this type = "").
Proof using value_of_distinct.
  intro this. split.
  - repeat split;
      match goal with
      | |- coordinateTypeToString _ _ (value_of ?T) = _ =>
          exact (coordinateTypeToString_value_of this T)
      end.
  - intros type N. unfold coordinateTypeToString.
    repeat match goal with
    | |- context [type =? value_of ?U] =>
        destruct (Z.eqb_spec type (value_of U)) as [E | _];
        [exfalso; exact (N U E) |]
    end.
    reflexivity.
Qed.

End Conversions.

Lemma type_string_round_trip_witness :
  all_distinct (map declaration_order enumerators) = true
  /\ stringToCoordinateType declaration_order sample
       (coordinateTypeToString declaration_order sample
          (declaration_order CoordinateTypeUsng))
     = declaration_order CoordinateTypeUsng.
Proof.
  split.
  - reflexivity.
  - apply (type_string_round_trip declaration_order). reflexivity.
Defined.

Lemma coordinateTypeToString_spec_witness :
  all_distinct (map declaration_order enumerators) = true
  /\ coordinateTypeToString declaration_order sample
       (declaration_order CoordinateTypeUtm) = "Utm"
  /\ ((forall T : CoordinateTypeEnumerator, 6 <> declaration_order T)
      /\ coordinateTypeToString declaration_order sample 6 = "").
Proof.
  split; [reflexivity | split; [| split]].
  - apply (coordinateTypeToString_spec declaration_order). reflexivity.
  - intros []; discriminate.
  - apply (proj2 (coordinateTypeToString_spec declaration_order eq_refl sample)).
    intros []; discriminate.
Defined.

(** ** The list property callbacks *)

Lemma QList_value_in_range {T : Type} `{DefaultConstructible T}
    (l : QList T) (i : Z) :
  0 <= i < QList_count l ->
  nth_error l (Z.to_nat i) = Some (QList_value l i).
Proof.
  intros [Lo Hi]. unfold QList_value.
  destruct (Z.ltb_spec i 0) as [Neg |]; [lia |].
  destruct (Z.leb_spec (QList_count l) i) as [Big |]; [lia |].
  cbn [orb]. apply nth_error_nth'. unfold QList_count in Hi. lia.
Qed.

Lemma QList_value_out_of_range {T : Type} `{DefaultConstructible T}
    (l : QList T) (i : Z) :
  i < 0 \/ QList_count l <= i -> QList_value l i = default_constructed.
Proof.
  intros Out. unfold QList_value.
  destruct (Z.ltb_spec i 0) as [Neg |]; [reflexivity |].
  destruct (Z.leb_spec (QList_count l) i) as [Big |]; [reflexivity | lia].
Qed.

Lemma update_same {Controller : Type} (h : Controllers Controller) a c :
  update Controller h a c a = c.
Proof. unfold update. now rewrite N.eqb_refl. Qed.

Lemma update_other {Controller : Type} (h : Controllers Controller) a b c :
  a <> b -> update Controller h a c b = h b.
Proof.
  intro D. unfold update. destruct (N.eqb_spec a b); [contradiction | reflexivity].
Qed.

(** C9: [listAppend] makes one call, [addOption] on the owning controller
    with its value argument, and [listClear] makes one call,
    [clearOptions] on the owning controller; [listCount] returns the
    number of elements of the backing list and [listAt] returns what the
    backing list has at the index, its element there when the index is in
    range, and these two call nothing on the controller.  Run on any
    implementation of the controller, the two writing callbacks apply
    that member function to the owning controller and leave every other
    one alone, and the two reading callbacks leave all of them alone. *)
Theorem list_callbacks_forwarding :
  forall (property : QQmlListProperty) (value : Ptr) (index : Z),
    listAppend property value = (tt, [addOption (object property) value])
    /\ listClear property = (tt, [clearOptions (object property)])
    /\ listCount property = (Z.of_nat (List.length (data property)), [])
    /\ listAt property index = (QList_value (data property) index, [])
    /\ (0 <= index < returned (listCount property) ->
        nth_error (data property) (Z.to_nat index)
        = Some (returned (listAt property index)))
    /\ (forall (Controller : Type)
               (addOption_body : Ptr -> Controller -> Controller)
               (clearOptions_body : Controller -> Controller)
               (h : Controllers Controller),
          run Controller addOption_body clearOptions_body
              (listAppend property value) h (object property)
          = addOption_body value (h (object property))
          /\ run Controller addOption_body clearOptions_body
                 (listClear property) h (object property)
             = clearOptions_body (h (object property))
          /\ (forall other : Ptr,
                object property <> other ->
                run Controller addOption_body clearOptions_body
                    (listAppend property value) h other = h other
                /\ run Controller addOption_body clearOptions_body
                       (listClear property) h other = h other)
          /\ run Controller addOption_body clearOptions_body
                 (listCount property) h = h
          /\ run Controller addOption_body clearOptions_body
                 (listAt property index) h = h).
Proof.
  intros property value index.
  repeat match goal with |- _ /\ _ => split end; try reflexivity.
  - apply QList_value_in_range.
  - intros Controller addOption_body clearOptions_body h.
    repeat match goal with |- _ /\ _ => split end; try reflexivity.
    + exact (update_same h _ _).
    + exact (update_same h _ _).
    + intros other D. split; exact (update_other h _ _ _ D).
Qed.

Lemma list_callbacks_forwarding_witness :
  (0 <= 1 < returned (listCount sample_property)
   /\ nth_error (data sample_property) (Z.to_nat 1)
      = Some (returned (listAt sample_property 1)))
  /\ listAt sample_property 1 = (32%N, [])
  /\ listAppend sample_property 64%N = (tt, [addOption 7%N 64%N]).
Proof.
  split; [split; [cbn; lia |] | split; [reflexivity |]].
  - apply (list_callbacks_forwarding sample_property nullptr 1). cbn; lia.
  - apply (list_callbacks_forwarding sample_property 64%N 0).
Defined.

(** C10: [listAt] has a result for every index; for an index below 0 or
    not below the count of the backing list the result is the null
    pointer, and no call is made on the controller. *)
Theorem listAt_out_of_range :
  forall (property : QQmlListProperty) (index : Z),
    index < 0 \/ returned (listCount property) <= index ->
    listAt property index = (nullptr, []).
Proof.
  intros property index Out. unfold listAt.
  rewrite QList_value_out_of_range by exact Out. reflexivity.
Qed.

Lemma listAt_out_of_range_witness :
  ((-1 < 0 \/ returned (listCount sample_property) <= -1)
   /\ listAt sample_property (-1) = (nullptr, []))
  /\ ((3 < 0 \/ returned (listCount sample_property) <= 3)
      /\ listAt sample_property 3 = (nullptr, [])).
Proof.
  split; split.
  - left; lia.
  - apply (listAt_out_of_range sample_property (-1)). left; lia.
  - right; cbn; lia.
  - apply (listAt_out_of_range sample_property 3). right; cbn; lia.
Defined.

(** * Further properties *)

(** ** Sequences of setter calls *)

Lemma emitted_bind {A B : Type} (m : Method A) (k : A -> Method B) this :
  emitted (bind m k) this =
  emitted m this ++ emitted (k (result m this)) (after m this).
Proof.
  unfold emitted, after, result, bind.
  destruct (m this) as [[a this1] s1]; cbn.
  destruct (k a this1) as [[b this2] s2]; reflexivity.
Qed.

Lemma emitted_WRITE (P : Property) (v : PropertyType P) this :
  emitted (WRITE P v) this = [NOTIFY P].
Proof. revert v. destruct P; reflexivity. Qed.

Lemma after_call_in_turn_app (l l' : list SetterCall) this :
  after (call_in_turn (l ++ l')) this =
  after (call_in_turn l') (after (call_in_turn l) this).
Proof.
  revert this. induction l as [| c rest IH]; intro this.
  - reflexivity.
  - cbn [app call_in_turn]. rewrite !after_bind. apply IH.
Qed.

(** X1: setters of two different properties commute: called in either
    order they leave the same object, and only the order of the two
    signals differs. *)
Theorem setters_commute :
  forall (P Q : Property) (v : PropertyType P) (w : PropertyType Q) this,
    P <> Q ->
    after (WRITE P v ;; WRITE Q w) this = after (WRITE Q w ;; WRITE P v) this
    /\ emitted (WRITE P v ;; WRITE Q w) this = [NOTIFY P; NOTIFY Q]
    /\ emitted (WRITE Q w ;; WRITE P v) this = [NOTIFY Q; NOTIFY P].
Proof.
  intros P Q v w this D. split.
  - revert v w. destruct P, Q; intros v w; try reflexivity; congruence.
  - rewrite !emitted_bind, !emitted_WRITE. split; reflexivity.
Qed.

Lemma setters_commute_witness :
  P_precision <> P_name
  /\ after (setPrecision 3 ;; setName "grid") sample
     = after (setName "grid" ;; setPrecision 3) sample.
Proof.
  split.
  - discriminate.
  - apply (setters_commute P_precision P_name 3 "grid" sample). discriminate.
Defined.

(** X2: any sequence of setter calls emits one signal per call, the signal
    of the property set, in the order of the calls; nothing is merged or
    left out when a property is set repeatedly. *)
Theorem call_in_turn_emits_in_order :
  forall (l : list SetterCall) this,
    emitted (call_in_turn l) this = map (fun c => NOTIFY (target c)) l.
Proof.
  intro l. induction l as [| c rest IH]; intro this.
  - reflexivity.
  - cbn [call_in_turn map]. rewrite emitted_bind, IH.
    unfold call. rewrite emitted_WRITE. reflexivity.
Qed.

(** X3: after any sequence of setter calls a property reads as the
    argument of the last call made, whatever was called before. *)
Theorem last_call_wins :
  forall (l : list SetterCall) (c : SetterCall) this,
    READ (target c) (after (call_in_turn (l ++ [c])) this) = argument c.
Proof.
  intros l c this. rewrite after_call_in_turn_app.
  cbn [call_in_turn]. rewrite after_bind. cbn [ret after fst snd].
  unfold call. apply READ_after_WRITE.
Qed.

(** X4: a property that none of the calls of a sequence sets reads after
    the sequence as it did before. *)
Theorem unset_property_kept :
  forall (l : list SetterCall) (Q : Property) this,
    (forall c, In c l -> target c <> Q) ->
    READ Q (after (call_in_turn l) this) = READ Q this.
Proof.
  intros l Q. induction l as [| c rest IH]; intros this N.
  - reflexivity.
  - cbn [call_in_turn]. rewrite after_bind, IH.
    + unfold call. apply READ_after_WRITE_other. apply N. now left.
    + intros c' I. apply N. now right.
Qed.

Lemma unset_property_kept_witness :
  (forall c,
      In c [setter_call P_outputMode 5; setter_call P_addSpaces false;
            setter_call P_outputMode 3] ->
      target c <> P_precision)
  /\ READ P_precision
       (after (call_in_turn
                 [setter_call P_outputMode 5; setter_call P_addSpaces false;
                  setter_call P_outputMode 3]) sample)
     = READ P_precision sample.
Proof.
  assert (N : forall c,
             In c [setter_call P_outputMode 5; setter_call P_addSpaces false;
                   setter_call P_outputMode 3] ->
             target c <> P_precision).
  { intros c [E | [E | [E | []]]]; subst c; discriminate. }
  split.
  - exact N.
  - apply (unset_property_kept _ P_precision sample N).
Defined.

(** ** The two conversions together *)

(** Every string is one of the six names, converted to its type, or is
    none of them and converted to [LatLon]. *)
Lemma stringToCoordinateType_cases
    (value_of : CoordinateTypeEnumerator -> CoordinateType) this
    (type : QString) :
  (exists T, type = canonical T
             /\ stringToCoordinateType value_of this type = value_of T)
  \/ (~ In type (coordinateTypeNames this)
      /\ stringToCoordinateType value_of this type
         = value_of CoordinateTypeLatLon).
Proof.
  unfold stringToCoordinateType, QString_eq.
  destruct (String.eqb_spec type s_gars) as [-> | N1];
    [left; exists CoordinateTypeGars; split; reflexivity |].
  destruct (String.eqb_spec type s_georef) as [-> | N2];
    [left; exists CoordinateTypeGeoRef; split; reflexivity |].
  destruct (String.eqb_spec type s_latlon) as [-> | N3];
    [left; exists CoordinateTypeLatLon; split; reflexivity |].
  destruct (String.eqb_spec type s_mgrs) as [-> | N4];
    [left; exists CoordinateTypeMgrs; split; reflexivity |].
  destruct (String.eqb_spec type s_usng) as [-> | N5];
    [left; exists CoordinateTypeUsng; split; reflexivity |].
  destruct (String.eqb_spec type s_utm) as [-> | N6];
    [left; exists CoordinateTypeUtm; split; reflexivity |].
  right. split; [| reflexivity].
  cbn. intros [E | [E | [E | [E | [E | [E | []]]]]]]; congruence.
Qed.

Lemma canonical_in_names (T : CoordinateTypeEnumerator) this :
  In (canonical T) (coordinateTypeNames this).
Proof. destruct T; cbn; tauto. Qed.

Lemma canonical_injective (S T : CoordinateTypeEnumerator) :
  canonical S = canonical T -> S = T.
Proof. destruct S, T; cbn; intro E; try reflexivity; discriminate. Qed.

Lemma canonical_not_empty (T : CoordinateTypeEnumerator) : canonical T <> "".
Proof. destruct T; discriminate. Qed.

(** X5: [stringToCoordinateType] never returns a value outside the
    enumeration: whatever the string, the result is one of the six
    enumerators. *)
Theorem stringToCoordinateType_is_enumerator :
  forall (value_of : CoordinateTypeEnumerator -> CoordinateType)
         (this : CoordinateConversionOptions) (type : QString),
    In (stringToCoordinateType value_of this type) (map value_of enumerators).
Proof.
  intros value_of this type.
  destruct (stringToCoordinateType_cases value_of this type)
    as [[T [_ ->]] | [_ ->]].
  - apply in_map. destruct T; cbn; tauto.
  - apply in_map. cbn; tauto.
Qed.

Section ConversionsTogether.

Variable value_of : CoordinateTypeEnumerator -> CoordinateType.

Hypothesis value_of_distinct :
  all_distinct (map value_of enumerators) = true.

(** A value is an enumerator, converted to its name, or is none and
    converted to the empty string. *)
Lemma coordinateTypeToString_cases this (type : CoordinateType) :
  (exists T, type = value_of T
             /\ coordinateTypeToString value_of this type = canonical T)
  \/ ((forall T, type <> value_of T)
      /\ coordinateTypeToString value_of this type = "").
Proof using value_of_distinct.
  destruct (in_dec Z.eq_dec type (map value_of enumerators)) as [I | N].
  - left. apply in_map_iff in I. destruct I as [T [<- _]].
    exists T. split; [reflexivity |].
    apply (coordinateTypeToString_value_of value_of value_of_distinct).
  - right.
    assert (D : forall T, type <> value_of T).
    { intros T E. apply N. subst type. apply in_map. destruct T; cbn; tauto. }
    split; [exact D |].
    unfold coordinateTypeToString.
    repeat match goal with
    | |- context [type =? value_of ?U] =>
        destruct (Z.eqb_spec type (value_of U)) as [E | _];
        [exfalso; exact (D U E) |]
    end.
    reflexivity.
Qed.

(** X6: converting a string to a type and the type back to a string gives
    the string itself when it is one of the six names, and "LatLon" for
    every other string; the result is never empty. *)
Theorem string_type_string :
  forall (this this' : CoordinateConversionOptions) (type : QString),
    coordinateTypeToString value_of this'
      (stringToCoordinateType value_of this type)
    = if existsb (QString_eq type) (coordinateTypeNames this) then type
      else "LatLon".
Proof using value_of_distinct.
  intros this this' type.
  destruct (stringToCoordinateType_cases value_of this type)
    as [[T [-> ->]] | [N ->]].
  - rewrite (coordinateTypeToString_value_of value_of value_of_distinct).
    destruct T; reflexivity.
  - rewrite (coordinateTypeToString_value_of value_of value_of_distinct).
    destruct (existsb (QString_eq type) (coordinateTypeNames this)) eqn:X;
      [| reflexivity].
    exfalso. apply N. apply existsb_exists in X. destruct X as [n [I E]].
    unfold QString_eq in E. apply String.eqb_eq in E. now subst n.
Qed.

(** X7: the empty string is the result of [coordinateTypeToString] for
    exactly the values that are none of the six enumerators. *)
Theorem coordinateTypeToString_empty_iff :
  forall (this : CoordinateConversionOptions) (type : CoordinateType),
    coordinateTypeToString value_of this type = ""
    <-> ~ In type (map value_of enumerators).
Proof using value_of_distinct.
  intros this type.
  destruct (coordinateTypeToString_cases this type) as [[T [-> E]] | [D E]].
  - rewrite E. split.
    + intro C. destruct (canonical_not_empty T C).
    + intro N. exfalso. apply N. apply in_map. destruct T; cbn; tauto.
  - rewrite E. split; [| reflexivity].
    intros _ I. apply in_map_iff in I. destruct I as [T [<- _]].
    exact (D T eq_refl).
Qed.

(** X8: two values with the same name are the same value, unless the
    name is empty: [coordinateTypeToString] tells the six types apart. *)
Theorem coordinateTypeToString_injective :
  forall (this this' : CoordinateConversionOptions) (a b : CoordinateType),
    coordinateTypeToString value_of this a
    = coordinateTypeToString value_of this' b ->
    coordinateTypeToString value_of this a <> "" ->
    a = b.
Proof using value_of_distinct.
  intros this this' a b E NE.
  destruct (coordinateTypeToString_cases this a) as [[S [-> Ea]] | [_ Ea]];
    [| congruence].
  destruct (coordinateTypeToString_cases this' b) as [[T [-> Eb]] | [_ Eb]].
  - f_equal. apply canonical_injective. congruence.
  - exfalso. apply (canonical_not_empty S). congruence.
Qed.

(** X9: [LatLon] is the result of [stringToCoordinateType] for the string
    "LatLon" and for the strings that are no name at all, and for no
    other: the result alone does not tell the two apart. *)
Theorem stringToCoordinateType_LatLon_iff :
  forall (this : CoordinateConversionOptions) (type : QString),
    stringToCoordinateType value_of this type = value_of CoordinateTypeLatLon
    <-> type = "LatLon" \/ ~ In type (coordinateTypeNames this).
Proof using value_of_distinct.
  intros this type.
  destruct (stringToCoordinateType_cases value_of this type)
    as [[T [-> E]] | [N E]].
  - rewrite E. split.
    + intro V. apply (value_of_injective value_of value_of_distinct) in V.
      subst T. now left.
    + intros [C | N].
      * apply (canonical_injective T CoordinateTypeLatLon) in C. now subst T.
      * destruct (N (canonical_in_names T this)).
  - split; [intros _; now right | intros _; exact E].
Qed.


(** X11: an object whose output mode is set from a string, whatever the
    string, has an output mode with a name, one of the six of
    [coordinateTypeNames()]. *)
Theorem outputMode_from_string_has_name :
  forall (this this' : CoordinateConversionOptions) (type : QString),
    In (coordinateTypeToString value_of this'
          (outputMode
             (after (setOutputMode (stringToCoordinateType value_of this type))
                    this)))
       (coordinateTypeNames this').
Proof using value_of_distinct.
  intros this this' type.
  change (outputMode
            (after (setOutputMode (stringToCoordinateType value_of this type))
                   this))
    with (stringToCoordinateType value_of this type).
  destruct (stringToCoordinateType_cases value_of this type)
    as [[T [_ ->]] | [_ ->]];
    rewrite (coordinateTypeToString_value_of value_of value_of_distinct);
    apply canonical_in_names.
Qed.

End ConversionsTogether.

Lemma string_type_string_witness :
  all_distinct (map declaration_order enumerators) = true
  /\ coordinateTypeToString declaration_order sample
       (stringToCoordinateType declaration_order sample "Usng") = "Usng"
  /\ coordinateTypeToString declaration_order sample
       (stringToCoordinateType declaration_order sample "usng") = "LatLon".
Proof.
  split; [reflexivity | split].
  - apply (string_type_string declaration_order eq_refl sample sample "Usng").
  - apply (string_type_string declaration_order eq_refl sample sample "usng").
Defined.

Lemma coordinateTypeToString_empty_iff_witness :
  all_distinct (map declaration_order enumerators) = true
  /\ (coordinateTypeToString declaration_order sample (-1) = ""
      <-> ~ In (-1) (map declaration_order enumerators)).
Proof.
  split; [reflexivity |].
  apply (coordinateTypeToString_empty_iff declaration_order eq_refl sample (-1)).
Defined.

Lemma coordinateTypeToString_injective_witness :
  all_distinct (map declaration_order enumerators) = true
  /\ coordinateTypeToString declaration_order sample 3
     = coordinateTypeToString declaration_order sample (1 + 2)
  /\ coordinateTypeToString declaration_order sample 3 <> ""
  /\ 3 = 1 + 2.
Proof.
  split; [reflexivity | split; [reflexivity | split; [discriminate |]]].
  apply (coordinateTypeToString_injective declaration_order eq_refl
           sample sample 3 (1 + 2)).
  - reflexivity.
  - discriminate.
Defined.

Lemma stringToCoordinateType_LatLon_iff_witness :
  all_distinct (map declaration_order enumerators) = true
  /\ (stringToCoordinateType declaration_order sample "bogus"
      = declaration_order CoordinateTypeLatLon
      <-> "bogus" = "LatLon" \/ ~ In "bogus" (coordinateTypeNames sample)).
Proof.
  split; [reflexivity |].
  apply (stringToCoordinateType_LatLon_iff declaration_order eq_refl
           sample "bogus").
Defined.


Lemma outputMode_from_string_has_name_witness :
  all_distinct (map declaration_order enumerators) = true
  /\ In (coordinateTypeToString declaration_order sample
           (outputMode
              (after (setOutputMode
                        (stringToCoordinateType declaration_order sample "Utm "))
                     sample)))
        (coordinateTypeNames sample).
Proof.
  split; [reflexivity |].
  apply (outputMode_from_string_has_name declaration_order eq_refl
           sample sample "Utm ").
Defined.

(** ** Reading the backing list through the callbacks *)

Lemma QList_value_app_middle {T : Type} `{DefaultConstructible T}
    (prefix : QList T) (x : T) (rest : QList T) :
  QList_value (prefix ++ x :: rest) (Z.of_nat (List.length prefix)) = x.
Proof.
  unfold QList_value, QList_count.
  rewrite length_app. cbn [List.length].
  destruct (Z.ltb_spec (Z.of_nat (List.length prefix)) 0) as [Neg |]; [lia |].
  destruct (Z.leb_spec
              (Z.of_nat (List.length prefix + S (List.length rest)))
              (Z.of_nat (List.length prefix))) as [Big |]; [lia |].
  cbn [orb]. rewrite Nat2Z.id. apply nth_middle.
Qed.

Lemma QList_value_indices_from {T : Type} `{DefaultConstructible T}
    (l prefix : QList T) :
  map (fun n => QList_value (prefix ++ l) (Z.of_nat n))
      (seq (List.length prefix) (List.length l))
  = l.
Proof.
  revert prefix. induction l as [| x rest IH]; intro prefix.
  - reflexivity.
  - cbn [List.length seq map]. rewrite QList_value_app_middle. f_equal.
    specialize (IH (prefix ++ [x])).
    rewrite <- app_assoc, length_app in IH. cbn [app List.length] in IH.
    rewrite Nat.add_1_r in IH. exact IH.
Qed.

(** X12: calling [listAt] with the indices [0], ..., [listCount - 1] in
    turn returns the elements of the backing list, all of them and in its
    order, and calls nothing on the controller. *)
Theorem listAt_enumerates :
  forall property : QQmlListProperty,
    map (listAt property)
        (indices (Z.to_nat (returned (listCount property))))
    = map (fun element => (element, [])) (data property).
Proof.
  intros [obj l]. unfold indices, listCount, listAt, returned, QList_count.
  cbn [fst data]. rewrite Nat2Z.id, map_map.
  transitivity
    (map (fun element : Ptr => (element, @nil ControllerCall))
         (map (fun n => QList_value l (Z.of_nat n)) (seq 0 (List.length l)))).
  - rewrite map_map. reflexivity.
  - f_equal. exact (QList_value_indices_from l []).
Qed.

(** X13: a null result of [listAt] means that the index is out of range
    or that the backing list holds a null pointer at the index; the
    result alone does not tell the two apart. *)
Theorem listAt_null_iff :
  forall (property : QQmlListProperty) (index : Z),
    returned (listAt property index) = nullptr
    <-> (index < 0 \/ returned (listCount property) <= index)
        \/ nth_error (data property) (Z.to_nat index) = Some nullptr.
Proof.
  intros property index. unfold listAt, listCount, returned. cbn [fst].
  destruct (Z.ltb_spec index 0) as [Neg | Pos].
  - split; [intros _; left; now left |]. intros _.
    apply QList_value_out_of_range. now left.
  - destruct (Z.leb_spec (QList_count (data property)) index) as [Big | Small].
    + split; [intros _; left; now right |]. intros _.
      apply QList_value_out_of_range. now right.
    + pose proof (QList_value_in_range (data property) index
                    (conj Pos Small)) as E.
      split.
      * intro Null. right. rewrite E. now f_equal.
      * intros [[Neg | Big] | At]; [lia | lia |].
        rewrite E in At. now injection At.
Qed.
